(** * Bivariate copulas: the base class of [copulas/bivariate/base.py]

    A shallow embedding of the [Bivariate] base class: the family
    enumeration, the constructor dispatch over the loaded subclasses,
    parameter validation, fitting, the dictionary round trip and the
    inverse-transform sampler.

    Conventions.
    - Python 3 semantics: ordering [None] against a number raises
      [TypeError].
    - Numbers are IEEE 754 binary64 values ([spec_float]), as numpy and
      scipy return them; comparisons are the IEEE ones, so [nan] compares
      false with everything and [0.0 == -0.0].
    - A method that mutates [self] is a state transformer over the
      instance; an exception leaves the mutations made before it in place,
      as in Python.
    - Exceptions are identified by their class; messages are not kept. *)

From Stdlib Require Import ZArith List Ascii String Floats.SpecFloat.
From stdpp Require Import gmap strings list.

Set Warnings "-register-all".
Open Scope Z_scope.

(** ** The family enumeration *)

(** [class CopulaTypes(Enum)]: available copula families. *)
Inductive CopulaTypes : Set :=
| CLAYTON
| FRANK
| GUMBEL
| INDEPENDENCE.

#[global] Instance CopulaTypes_eq_dec : EqDecision CopulaTypes.
Proof. solve_decision. Defined.

(** ** Python values, exceptions and effects *)

Module Py.

Inductive exn : Set :=
| ValueError
| TypeError
| AttributeError
| KeyError
| NotFittedError
| NotImplementedError.

(** The outcome of evaluating an expression: a value or a raised exception. *)
Inductive outcome (A : Type) : Type :=
| Returns (a : A)
| Raises (e : exn).

Arguments Returns {A} a.
Arguments Raises {A} e.

Definition obind {A B} (o : outcome A) (f : A -> outcome B) : outcome B :=
  match o with
  | Returns a => f a
  | Raises e => Raises e
  end.

(** Statements over a mutable object of type [S]. *)
Definition Eff (S A : Type) : Type := S -> outcome A * S.

#[global] Instance Eff_ret {S} : MRet (Eff S) :=
  fun A a s => (Returns a, s).

#[global] Instance Eff_bind {S} : MBind (Eff S) :=
  fun A B f m s =>
    match m s with
    | (Returns a, s') => f a s'
    | (Raises e, s') => (Raises e, s')
    end.

Definition get {S} : Eff S S := fun s => (Returns s, s).
Definition modify {S} (f : S -> S) : Eff S unit := fun s => (Returns tt, f s).
Definition raise {S A} (e : exn) : Eff S A := fun s => (Raises e, s).
Definition lift {S A} (o : outcome A) : Eff S A := fun s => (o, s).

(** binary64 numbers. *)
Definition float : Set := spec_float.

Definition f_zero : float := S754_zero false.
Definition f_one : float := S754_finite false 4503599627370496 (-52).
Definition f_minus_one : float := S754_finite true 4503599627370496 (-52).
Definition f_inf : float := S754_infinity false.
Definition f_nan : float := S754_nan.

(** The values that reach the attributes and arguments of the class. *)
Inductive pyval : Set :=
| PyNone
| PyFloat (x : float)
| PyStr (s : string)
| PyEnum (t : CopulaTypes).

(** [bool(v)]: [None], zero and the empty string are falsy. *)
Definition truthy (v : pyval) : bool :=
  match v with
  | PyNone => false
  | PyFloat x => negb (SFeqb x f_zero)
  | PyStr s => negb (String.eqb s "")
  | PyEnum _ => true
  end.

(** [a <= v], [v <= b], [v > b], [v < b] with a number on one side: only a
    number on the other side is ordered against it. *)
Definition float_le_val (a : float) (v : pyval) : outcome bool :=
  match v with
  | PyFloat x => Returns (SFleb a x)
  | _ => Raises TypeError
  end.

Definition val_le_float (v : pyval) (b : float) : outcome bool :=
  match v with
  | PyFloat x => Returns (SFleb x b)
  | _ => Raises TypeError
  end.

Definition val_gt_float (v : pyval) (b : float) : outcome bool :=
  match v with
  | PyFloat x => Returns (SFltb b x)
  | _ => Raises TypeError
  end.

Definition val_lt_float (v : pyval) (b : float) : outcome bool :=
  match v with
  | PyFloat x => Returns (SFltb x b)
  | _ => Raises TypeError
  end.

(** [v in l] for a list of numbers: equality with some element; a value
    that is not a number equals none of them. *)
Definition val_in_floats (v : pyval) (l : list float) : bool :=
  match v with
  | PyFloat x => existsb (SFeqb x) l
  | _ => false
  end.

(** [str.upper()] on ASCII text. Code points from 128 on are left alone
    here; Python consults the Unicode tables for them, so statements that
    depend on [upper] rejecting a name are made for ASCII names. *)
Definition upper_char (c : ascii) : ascii :=
  let n := nat_of_ascii c in
  if (97 <=? n)%nat && (n <=? 122)%nat then ascii_of_nat (n - 32) else c.

Fixpoint upper (s : string) : string :=
  match s with
  | EmptyString => EmptyString
  | String c r => String (upper_char c) (upper r)
  end.

Fixpoint is_ascii (s : string) : bool :=
  match s with
  | EmptyString => true
  | String c r => (nat_of_ascii c <? 128)%nat && is_ascii r
  end.

(** [d[key]] on a dictionary. *)
Definition getitem (d : gmap string pyval) (key : string) : outcome pyval :=
  match d !! key with
  | Some v => Returns v
  | None => Raises KeyError
  end.

(** [np.column_stack((u, v))] for two one-dimensional arrays. *)
Definition column_stack (u v : list float) : outcome (list (float * float)) :=
  if (length u =? length v)%nat then Returns (combine u v) else Raises ValueError.

End Py.

Import Py.

(** ** Members of the enumeration *)

Definition name (t : CopulaTypes) : string :=
  match t with
  | CLAYTON => "CLAYTON"
  | FRANK => "FRANK"
  | GUMBEL => "GUMBEL"
  | INDEPENDENCE => "INDEPENDENCE"
  end.

Definition value (t : CopulaTypes) : Z :=
  match t with
  | CLAYTON => 0
  | FRANK => 1
  | GUMBEL => 2
  | INDEPENDENCE => 3
  end.

(** [CopulaTypes.__members__], in definition order. *)
Definition __members__ : list (string * CopulaTypes) :=
  map (fun t => (name t, t)) [CLAYTON; FRANK; GUMBEL; INDEPENDENCE].

(** [CopulaTypes[key]] when [key in CopulaTypes.__members__]. *)
Fixpoint assoc (key : string) (l : list (string * CopulaTypes)) : option CopulaTypes :=
  match l with
  | [] => None
  | (k, t) :: r => if String.eqb key k then Some t else assoc key r
  end.

Definition member (key : string) : option CopulaTypes := assoc key __members__.

(** ** Classes and instances *)

(** The attributes of an instance, read through the class defaults
    [theta = None] and [tau = None]. *)
Record attrs : Type := Attrs {
  theta : pyval;
  tau : pyval;
  random_seed : option Z
}.

Definition set_theta (v : pyval) (a : attrs) : attrs :=
  {| theta := v; tau := tau a; random_seed := random_seed a |}.

Definition set_tau (v : pyval) (a : attrs) : attrs :=
  {| theta := theta a; tau := v; random_seed := random_seed a |}.

Definition set_random_seed (z : option Z) (a : attrs) : attrs :=
  {| theta := theta a; tau := tau a; random_seed := z |}.

(** What a class of the hierarchy declares: its class attributes and the
    methods the base class leaves to the family. The methods read [self]
    and raise or return. *)
Record klass : Type := Klass {
  __name__ : string;
  copula_type : option CopulaTypes;
  theta_interval : list float;
  invalid_thetas : list float;
  compute_theta : attrs -> outcome pyval;
  percent_point : attrs -> list float -> list float -> outcome (list float);
  partial_derivative : attrs -> list (float * float) -> float -> outcome (list float)
}.

(** [class Bivariate(object)] itself: no family, empty interval, and every
    family method raises [NotImplementedError]. *)
Definition Bivariate : klass :=
  {| __name__ := "Bivariate";
     copula_type := None;
     theta_interval := [];
     invalid_thetas := [];
     compute_theta := fun _ => Raises NotImplementedError;
     percent_point := fun _ _ _ => Raises NotImplementedError;
     partial_derivative := fun _ _ _ => Raises NotImplementedError |}.

(** A class together with the classes derived from it, as
    [__subclasses__()] reports them. *)
Inductive pyclass : Type :=
| PyClass (k : klass) (subs : list pyclass).

Definition class_of (c : pyclass) : klass :=
  match c with PyClass k _ => k end.

Definition __subclasses__ (c : pyclass) : list pyclass :=
  match c with PyClass _ subs => subs end.

(** [_get_subclasses]: each direct subclass followed by its own
    descendants. *)
Fixpoint _get_subclasses (c : pyclass) : list klass :=
  match c with
  | PyClass _ subs =>
      flat_map (fun subclass => class_of subclass :: _get_subclasses subclass) subs
  end.

(** The state of the class object [Bivariate]: the subclasses defined so
    far and the [_subclasses] attribute that caches the scan. *)
Record class_state : Type := ClassState {
  loaded : list pyclass;
  _subclasses : list klass
}.

Definition set_subclasses (l : list klass) (st : class_state) : class_state :=
  {| loaded := loaded st; _subclasses := l |}.

(** [Bivariate.subclasses()]: the scan runs while the cached list is
    empty. *)
Definition subclasses : Eff class_state (list klass) :=
  st ← get;
  (if bool_decide (_subclasses st = [])
   then modify (set_subclasses (_get_subclasses (PyClass Bivariate (loaded st))))
   else mret tt);;
  st' ← get;
  mret (_subclasses st').

Record instance : Type := Instance {
  cls : klass;
  self : attrs
}.

(** [object.__new__(k)]. *)
Definition object_new (k : klass) : instance :=
  {| cls := k; self := {| theta := PyNone; tau := PyNone; random_seed := None |} |}.

(** [subclass.copula_type is copula_type]. *)
Definition is_family (t : CopulaTypes) (k : klass) : bool :=
  bool_decide (copula_type k = Some t).

(** The dispatch loop of [__new__]: the first subclass of the family, or
    falling off the end of the loop, which returns [None]. *)
Fixpoint dispatch (t : CopulaTypes) (l : list klass) : option instance :=
  match l with
  | [] => None
  | subclass :: r =>
      if is_family t subclass then Some (object_new subclass) else dispatch t r
  end.

(** [Bivariate.__new__(Bivariate, *args, **kwargs)], where [kw] is
    [kwargs.get('copula_type', None)] when the keyword is present. *)
Definition __new__ (kw : option pyval) : Eff class_state (option instance) :=
  match kw with
  | None | Some PyNone => mret (Some (object_new Bivariate))
  | Some v =>
      t ← match v with
          | PyEnum t => mret t
          | PyStr s =>
              match member (upper s) with
              | Some t => mret t
              | None => raise ValueError
              end
          | _ => raise ValueError
          end;
      l ← subclasses;
      mret (dispatch t l)
  end.

(** The arguments of a call [Bivariate(...)]: the first positional
    argument and the [copula_type] keyword when given, and the random
    seed. *)
Record call_args : Type := CallArgs {
  positional : option pyval;
  keyword : option pyval;
  seed : option Z
}.

(** [__init__(self, copula_type=None, random_seed=None)]: a parameter
    passed both by position and by keyword is a [TypeError]. *)
Definition __init__ (a : call_args) (o : instance) : outcome instance :=
  match positional a, keyword a with
  | Some _, Some _ => Raises TypeError
  | _, _ => Returns {| cls := cls o; self := set_random_seed (seed a) (self o) |}
  end.

(** The call [Bivariate(...)]: [__new__], then [__init__] on the object it
    returned when that is an instance of the class. *)
Definition call (a : call_args) : Eff class_state (option instance) :=
  o ← __new__ (keyword a);
  match o with
  | None => mret None
  | Some i => i' ← lift (__init__ a i); mret (Some i')
  end.

Definition by_keyword (v : pyval) : call_args :=
  {| positional := None; keyword := Some v; seed := None |}.

Definition by_position (v : pyval) : call_args :=
  {| positional := Some v; keyword := None; seed := None |}.

(** ** Validation *)

(** [lower, upper = self.theta_interval]: unpacking needs exactly two
    elements. *)
Definition unpack_interval (l : list float) : outcome (float * float) :=
  match l with
  | [lower; upper] => Returns (lower, upper)
  | _ => Raises ValueError
  end.

(** [check_theta]: the chained comparison stops at the first false link;
    building the message reads [self.copula_type.name]. *)
Definition check_theta (k : klass) : Eff attrs unit :=
  '(lower, upper) ← lift (unpack_interval (theta_interval k));
  a ← get;
  above ← lift (float_le_val lower (theta a));
  inside ← (if (above : bool) then lift (val_le_float (theta a) upper) else mret false);
  if negb inside || val_in_floats (theta a) (invalid_thetas k)
  then match copula_type k with
       | Some _ => raise ValueError
       | None => raise AttributeError
       end
  else mret tt.

(** [check_fit]: [not self.theta] decides whether the model is fitted. *)
Definition check_fit (k : klass) : Eff attrs unit :=
  a ← get;
  if negb (truthy (theta a)) then raise NotFittedError else check_theta k.

(** ** Fitting *)

Definition _compute_theta (k : klass) : Eff attrs unit :=
  a ← get;
  v ← lift (compute_theta k a);
  modify (set_theta v);;
  check_theta k.

(** Modelled from the spec: [split_matrix] of [copulas.bivariate.utils],
    which is not part of base.py: the two columns of the observations. *)
Definition split_matrix (X : list (float * float)) : list float * list float :=
  (map fst X, map snd X).

Section Fit.

(** [stats.kendalltau(U, V)[0]] of scipy. *)
Variable kendalltau : list float -> list float -> float.

Definition fit (k : klass) (X : list (float * float)) : Eff attrs unit :=
  let '(U, V) := split_matrix X in
  modify (set_tau (PyFloat (kendalltau U V)));;
  _compute_theta k.

End Fit.

(** ** Persistence *)

Definition to_dict (i : instance) : outcome (gmap string pyval) :=
  match copula_type (cls i) with
  | None => Raises AttributeError
  | Some t =>
      Returns (<["copula_type" := PyStr (name t)]>
               (<["theta" := theta (self i)]>
                (<["tau" := tau (self i)]> ∅)))
  end.

(** [Bivariate.from_dict]: each assignment evaluates its right-hand side
    before it touches [instance]. *)
Definition from_dict (copula_dict : gmap string pyval) : Eff class_state instance :=
  t ← lift (getitem copula_dict "copula_type");
  made ← call (by_keyword t);
  th ← lift (getitem copula_dict "theta");
  i ← match made with
      | None => raise AttributeError
      | Some i => mret {| cls := cls i; self := set_theta th (self i) |}
      end;
  ta ← lift (getitem copula_dict "tau");
  mret {| cls := cls i; self := set_tau ta (self i) |}.

(** ** Queries *)

(** [partial_derivative_scalar(U, V, y)] for single values [U] and [V]. *)
Definition partial_derivative_scalar (k : klass) (U V y : float) : Eff attrs (list float) :=
  check_fit k;;
  a ← get;
  lift (partial_derivative k a [(U, V)] y).

Section Sample.

(** The state of numpy's global generator, [np.random.uniform(0, 1, n)]
    on it and [np.random.seed]. *)
Variable G : Type.
Variable np_random_uniform : nat -> G -> list float * G.
Variable np_random_seed : Z -> G.

Definition uniform (n : nat) : Eff G (list float) :=
  fun g => let '(l, g') := np_random_uniform n g in (Returns l, g').

(** The body of [sample]. *)
Definition sample_body (k : klass) (a : attrs) (n_samples : nat) : Eff G (list (float * float)) :=
  above ← lift (val_gt_float (tau a) f_one);
  outside ← (if (above : bool) then mret true else lift (val_lt_float (tau a) f_minus_one));
  if (outside : bool) then raise ValueError
  else
    v ← uniform n_samples;
    c ← uniform n_samples;
    u ← lift (percent_point k a c v);
    lift (column_stack u v).

(** Modelled from the spec: the [random_state] decorator of the [copulas]
    package, which is not part of base.py: randomness is drawn from a
    seedable generator, so that a fixed seed reproduces the exact sample
    sequence. The generator state left behind by the call is not kept. *)
Definition sample (k : klass) (a : attrs) (n_samples : nat) (g : G) : outcome (list (float * float)) :=
  let start := match random_seed a with
               | None => g
               | Some z => np_random_seed z
               end in
  fst (sample_body k a n_samples start).

End Sample.

(** ** Notions used by the statements *)

(** What [subclasses()] returns in a given class state, and the state it
    leaves. *)
Definition scan (st : class_state) : list klass :=
  if bool_decide (_subclasses st = [])
  then _get_subclasses (PyClass Bivariate (loaded st))
  else _subclasses st.

Definition scanned (st : class_state) : class_state :=
  if bool_decide (_subclasses st = [])
  then set_subclasses (_get_subclasses (PyClass Bivariate (loaded st))) st
  else st.

(** The family an identifier stands for: a member of the enumeration, or a
    string whose upper-case form is a member name. *)
Definition resolve (v : pyval) : option CopulaTypes :=
  match v with
  | PyEnum t => Some t
  | PyStr s => member (upper s)
  | _ => None
  end.

(** An identifier names a family when it is the member itself or a string
    that upper-cases to the member's name. *)
Definition names (v : pyval) (t : CopulaTypes) : Prop :=
  v = PyEnum t \/ exists s, v = PyStr s /\ upper s = name t.

(** A family is registered when the scan holds a class of that family. *)
Definition registered (t : CopulaTypes) (st : class_state) : Prop :=
  Exists (fun k => copula_type k = Some t) (scan st).

(** [x] lies in the closed interval [[lo, hi]] and is none of [bad]. *)
Definition in_limits (lo hi : float) (bad : list float) (x : float) : bool :=
  SFleb lo x && SFleb x hi && negb (existsb (SFeqb x) bad).

(** A coordinate of the unit square. *)
Definition in_unit (x : float) : bool := SFleb f_zero x && SFleb x f_one.

(** A model no operation has touched yet. *)
Definition unfit : attrs := {| theta := PyNone; tau := PyNone; random_seed := None |}.

(** ** Sample kernels

    The families of the package live in modules of their own. The classes
    below stand for such subclasses where a statement needs a concrete
    one: they declare a family, an interval and the family methods, and
    inherit everything else. *)

Module Kernels.

Definition f_half : float := S754_finite false 4503599627370496 (-53).
Definition f_two : float := S754_finite false 4503599627370496 (-51).
Definition f_quarter : float := S754_finite false 4503599627370496 (-54).

(** Independence: the parameter is always zero and the inverse conditional
    is the level itself. *)
Definition Independence : klass :=
  {| __name__ := "Independence";
     copula_type := Some INDEPENDENCE;
     theta_interval := [f_zero; f_zero];
     invalid_thetas := [];
     compute_theta := fun _ => Returns (PyFloat f_zero);
     percent_point := fun _ y _ => Returns y;
     partial_derivative := fun _ X _ => Returns (map snd X) |}.

(** A Gumbel-like family: [theta = 1 / (1 - tau)] on [[1, inf]]. *)
Definition Gumbel : klass :=
  {| __name__ := "Gumbel";
     copula_type := Some GUMBEL;
     theta_interval := [f_one; f_inf];
     invalid_thetas := [];
     compute_theta := fun a =>
       match tau a with
       | PyFloat t => Returns (PyFloat (SFdiv 53 1024 f_one (SFsub 53 1024 f_one t)))
       | _ => Raises TypeError
       end;
     percent_point := fun _ _ _ => Raises NotImplementedError;
     partial_derivative := fun _ _ _ => Raises NotImplementedError |}.

(** Class states: every module imported, and only the Gumbel one. *)
Definition both_loaded : class_state :=
  {| loaded := [PyClass Independence []; PyClass Gumbel []]; _subclasses := [] |}.

Definition gumbel_only : class_state :=
  {| loaded := [PyClass Gumbel []]; _subclasses := [] |}.

(** Two observations in opposite order, for which scipy reports
    [tau = -1]. *)
Definition discordant : list (float * float) :=
  [(f_one, f_two); (f_two, f_one)].

Definition kendalltau_discordant (U V : list float) : float := f_minus_one.

(** A record edited by hand: a Gumbel parameter below the interval. *)
Definition edited_record : gmap string pyval :=
  <["copula_type" := PyStr "GUMBEL"]>
    (<["theta" := PyFloat f_half]> (<["tau" := PyFloat f_minus_one]> ∅)).

(** A record of a family the enumeration does not have. *)
Definition student_record : gmap string pyval :=
  <["copula_type" := PyStr "student"]>
    (<["theta" := PyFloat f_two]> (<["tau" := PyFloat f_half]> ∅)).

(** A fitted Gumbel model: [tau = 0.5], [theta = 2]. *)
Definition gumbel_model : instance :=
  {| cls := Gumbel;
     self := {| theta := PyFloat f_two; tau := PyFloat f_half; random_seed := None |} |}.

(** A generator that hands out the same two values over and over; its
    state counts the calls. *)
Definition steady_uniform (n : nat) (g : nat) : list float * nat :=
  (repeat (if Nat.even g then f_half else f_quarter) n, S g).

Definition steady_seed (z : Z) : nat := Z.to_nat z.

End Kernels.

(** ** The class tree *)

(** [descends d c]: the class [d] derives from [c], directly or through
    other classes. *)
Inductive descends : pyclass -> pyclass -> Prop :=
| descends_child k subs s :
    In s subs -> descends s (PyClass k subs)
| descends_deeper k subs s d :
    In s subs -> descends d s -> descends d (PyClass k subs).

(** ** Helpers of the test suite ([tests/__init__.py]) *)

Module Tests.

(** What the compared sequences hold: numbers, nested lists, and anything
    else ([None] stands for it). *)
Inductive item : Type :=
| Num (x : float)
| Lst (l : list item)
| Other.

(** How a helper ends: it returns, an [assert] fails, or an exception of
    another class is raised. *)
Inductive verdict : Set :=
| Pass
| AssertionError
| Error (e : exn).

Definition and_then (r k : verdict) : verdict :=
  match r with
  | Pass => k
  | _ => r
  end.

(** The default [epsilon=10E-6] as a binary64 number. *)
Definition default_epsilon : float := S754_finite false 5902958103587057 (-69).

(** [abs(first - second) < epsilon] on two numbers. *)
Definition compare_values_epsilon (first second epsilon : float) : bool :=
  SFltb (SFabs (SFsub 53 1024 first second)) epsilon.

(** [assert compare_values_epsilon(_first, _second, epsilon)] where only
    [_first] is known to be a number. *)
Definition assert_close (first : float) (second : item) (epsilon : float) : verdict :=
  match second with
  | Num y => if compare_values_epsilon first y epsilon then Pass else AssertionError
  | _ => Error TypeError
  end.

(** [compare_nested_iterables]: [zip] needs two iterables and stops at
    the shorter one; the two tests on [_first] are separate [if]s. *)
Fixpoint compare_nested_iterables (first second : item) (epsilon : float)
  {struct first} : verdict :=
  match first, second with
  | Lst xs, Lst ys =>
      (fix loop (xs ys : list item) {struct xs} : verdict :=
         match xs, ys with
         | _first :: xs', _second :: ys' =>
             and_then
               match _first with
               | Lst _ => compare_nested_iterables _first _second epsilon
               | _ => Pass
               end
               (and_then
                  match _first with
                  | Num x => assert_close x _second epsilon
                  | _ => Pass
                  end
                  (loop xs' ys'))
         | _, _ => Pass
         end) xs ys
  | _, _ => Error TypeError
  end.
End Tests.

(** Class states and models for the examples of the second part. *)
Module Scenarios.

(** A second class of the Gumbel family, derived from the first. *)
Definition GumbelVariant : klass :=
  {| __name__ := "GumbelVariant";
     copula_type := Some GUMBEL;
     theta_interval := [f_one; Kernels.f_two];
     invalid_thetas := [];
     compute_theta := compute_theta Kernels.Gumbel;
     percent_point := percent_point Kernels.Gumbel;
     partial_derivative := partial_derivative Kernels.Gumbel |}.

(** A class that declares limits but no family. *)
Definition Nameless : klass :=
  {| __name__ := "Nameless";
     copula_type := None;
     theta_interval := [f_one; f_inf];
     invalid_thetas := [];
     compute_theta := fun _ => Raises NotImplementedError;
     percent_point := fun _ _ _ => Raises NotImplementedError;
     partial_derivative := fun _ _ _ => Raises NotImplementedError |}.

(** The Gumbel class with a class derived from it. *)
Definition gumbel_tree : pyclass :=
  PyClass Kernels.Gumbel [PyClass GumbelVariant []].

(** The state after a first construction with only Gumbel loaded. *)
Definition after_first_scan : class_state := scanned Kernels.gumbel_only.

(** Gumbel scanned first, the Independence class defined afterwards. *)
Definition independence_late : class_state :=
  {| loaded := loaded (scanned Kernels.gumbel_only) ++ [PyClass Kernels.Independence []];
     _subclasses := _subclasses (scanned Kernels.gumbel_only) |}.

(** An Independence model as [fit] leaves it on the discordant data. *)
Definition fitted_independence : instance :=
  {| cls := Kernels.Independence;
     self := snd (fit Kernels.kendalltau_discordant Kernels.Independence
                    Kernels.discordant unfit) |}.

(** A record with lower-case family name and a key of its own. *)
Definition loose_record : gmap string pyval :=
  <["copula_type" := PyStr "gumbel"]>
    (<["theta" := PyFloat Kernels.f_two]>
       (<["tau" := PyFloat Kernels.f_half]>
          (<["comment" := PyStr "by hand"]> ∅))).

End Scenarios.

(** * Properties *)

(** Unfolding one layer of the effect combinators. *)
Ltac eff :=
  unfold mbind, mret, Eff_bind, Eff_ret, get, modify, raise, lift; cbn.

(** ** The subclass scan and the dispatch loop *)

Section Registry.

Implicit Types (st : class_state) (t : CopulaTypes) (l : list klass).

Lemma subclasses_scan st : subclasses st = (Returns (scan st), scanned st).
Proof.
  unfold subclasses, scan, scanned. eff.
  destruct (bool_decide (_subclasses st = [])) eqn:E; cbn; [reflexivity |].
  reflexivity.
Qed.

Lemma scanned_loaded st : loaded (scanned st) = loaded st.
Proof. unfold scanned. destruct (bool_decide _); reflexivity. Qed.

Lemma scanned_cache st : _subclasses (scanned st) = scan st.
Proof. unfold scanned, scan. destruct (bool_decide _); reflexivity. Qed.

(** Once a scan has found something, later scans return the same list. *)
Lemma scan_stable st : scan st <> [] -> scan (scanned st) = scan st.
Proof.
  intros Hne. unfold scan at 1. rewrite scanned_cache.
  rewrite bool_decide_eq_false_2; [reflexivity | exact Hne].
Qed.

Lemma is_family_true t k : is_family t k = true <-> copula_type k = Some t.
Proof. unfold is_family. apply bool_decide_eq_true. Qed.

Lemma dispatch_none t l :
  Forall (fun k => copula_type k <> Some t) l -> dispatch t l = None.
Proof.
  induction 1 as [| k l Hk _ IH]; cbn; [reflexivity |].
  destruct (is_family t k) eqn:E; [| exact IH].
  apply is_family_true in E. contradiction.
Qed.

Lemma dispatch_some t l :
  Exists (fun k => copula_type k = Some t) l ->
  exists k, In k l /\ copula_type k = Some t /\ dispatch t l = Some (object_new k).
Proof.
  induction l as [| k l IH]; intros Hex.
  - inversion Hex.
  - cbn. destruct (is_family t k) eqn:E.
    + exists k. apply is_family_true in E. auto.
    + destruct IH as (k' & Hin & Hk' & Hd).
      * inversion Hex as [? ? Hk | ? ? Hl]; subst; [| exact Hl].
        apply is_family_true in Hk. congruence.
      * exists k'. auto.
Qed.

Lemma dispatch_family t l i :
  dispatch t l = Some i -> copula_type (cls i) = Some t /\ self i = unfit /\ In (cls i) l.
Proof.
  induction l as [| k l IH]; cbn; [discriminate |].
  destruct (is_family t k) eqn:E.
  - intros [= <-]. apply is_family_true in E. cbn. auto.
  - intros H. destruct (IH H) as (? & ? & ?). auto.
Qed.

(** [__new__] on an identifier that names a family: the scan, then the loop. *)
Lemma new_resolved st v t :
  resolve v = Some t ->
  __new__ (Some v) st = (Returns (dispatch t (scan st)), scanned st).
Proof.
  intros Hr. destruct v as [| x | s | t']; unfold resolve in Hr; try discriminate.
  - unfold __new__. rewrite Hr. eff. rewrite subclasses_scan. reflexivity.
  - injection Hr as ->. unfold __new__. eff. rewrite subclasses_scan. reflexivity.
Qed.

(** [__new__] on an identifier that names none; a string identifier is
    taken to be ASCII, the range on which [upper] is [str.upper]. *)
Lemma new_unresolved st v :
  v <> PyNone -> resolve v = None ->
  (forall s, v = PyStr s -> is_ascii s = true) ->
  __new__ (Some v) st = (Raises ValueError, st).
Proof.
  intros Hn Hr _. destruct v as [| x | s | t']; unfold resolve in Hr; try discriminate.
  - contradiction.
  - reflexivity.
  - unfold __new__. rewrite Hr. reflexivity.
Qed.

Lemma call_keyword_resolved st v t sd :
  resolve v = Some t ->
  call {| positional := None; keyword := Some v; seed := sd |} st =
  (Returns (option_map (fun i => {| cls := cls i; self := set_random_seed sd (self i) |})
              (dispatch t (scan st))),
   scanned st).
Proof.
  intros Hr. unfold call, mbind, Eff_bind. cbn [keyword].
  rewrite (new_resolved st v t Hr).
  destruct (dispatch t (scan st)); reflexivity.
Qed.

End Registry.

(** ** The factory *)

Section Factory.

Implicit Types (st : class_state) (t : CopulaTypes) (v : pyval).

Lemma member_name t : member (name t) = Some t.
Proof. destruct t; reflexivity. Qed.

Lemma member_inv key t : member key = Some t -> key = name t.
Proof.
  unfold member, __members__. cbn.
  repeat (destruct (String.eqb key _) eqn:E;
          [apply String.eqb_eq in E; intros [= <-]; exact E | clear E]).
  discriminate.
Qed.

Lemma names_resolve v t : names v t <-> resolve v = Some t.
Proof.
  split.
  - intros [-> | (s & -> & Hs)]; cbn; [reflexivity |].
    rewrite Hs. apply member_name.
  - destruct v as [| x | s | t']; unfold resolve; try discriminate.
    + intros H. right. exists s. split; [reflexivity | exact (member_inv _ _ H)].
    + intros [= ->]. left. reflexivity.
Qed.

(** A registered family is served by the first class of the scan that
    declares it; the model comes back with neither parameter set. *)
Lemma factory_registered st v t sd :
  names v t -> registered t st ->
  exists k,
    In k (scan st) /\ copula_type k = Some t /\
    call {| positional := None; keyword := Some v; seed := sd |} st =
    (Returns (Some {| cls := k;
                      self := {| theta := PyNone; tau := PyNone; random_seed := sd |} |}),
     scanned st).
Proof.
  intros Hn Hreg. apply names_resolve in Hn.
  destruct (dispatch_some t (scan st) Hreg) as (k & Hin & Hk & Hd).
  exists k. repeat split; try assumption.
  rewrite (call_keyword_resolved st v t sd Hn), Hd. reflexivity.
Qed.

(** An identifier that names no member of the enumeration is refused; a
    string identifier is taken to be ASCII. *)
Lemma factory_unknown st v sd :
  v <> PyNone -> resolve v = None ->
  (forall s, v = PyStr s -> is_ascii s = true) ->
  call {| positional := None; keyword := Some v; seed := sd |} st = (Raises ValueError, st).
Proof.
  intros Hn Hr Hasc. unfold call, mbind, Eff_bind. cbn [keyword].
  rewrite (new_unresolved st v Hn Hr Hasc). reflexivity.
Qed.

Example factory_by_name :
  fst (call (by_keyword (PyStr "Independence")) Kernels.both_loaded) =
  Returns (Some (object_new Kernels.Independence)).
Proof. reflexivity. Qed.

Example factory_by_member :
  fst (call (by_keyword (PyEnum GUMBEL)) Kernels.both_loaded) =
  Returns (Some (object_new Kernels.Gumbel)).
Proof. reflexivity. Qed.

Example factory_misspelt :
  fst (call (by_keyword (PyStr "gumbell")) Kernels.both_loaded) = Raises ValueError.
Proof. reflexivity. Qed.

(** A family passed by position never reaches the dispatch: the object is
    a plain [Bivariate]. *)
Lemma factory_positional st v :
  call (by_position v) st = (Returns (Some (object_new Bivariate)), st).
Proof. reflexivity. Qed.

(** C10. For every identifier that is a member of the enumeration, or a
    string naming one up to case, such that no class of the subclass scan
    declares that family, [__new__] falls off the end of its loop: the
    constructor expression evaluates to [None], no instance is made and
    nothing is raised. *)
Theorem new_falls_through_to_None st (a : call_args) v t :
  keyword a = Some v ->
  names v t ->
  Forall (fun k => copula_type k <> Some t) (scan st) ->
  __new__ (Some v) st = (Returns None, scanned st) /\
  call a st = (Returns None, scanned st).
Proof.
  intros Hk Hn Hnone. apply names_resolve in Hn.
  assert (Hnew : __new__ (Some v) st = (Returns None, scanned st)).
  { rewrite (new_resolved st v t Hn), (dispatch_none t _ Hnone). reflexivity. }
  split; [exact Hnew |].
  unfold call, mbind, Eff_bind. rewrite Hk, Hnew. reflexivity.
Qed.

Lemma new_falls_through_to_None_witness :
  __new__ (Some (PyStr "frank")) Kernels.gumbel_only =
    (Returns None, scanned Kernels.gumbel_only) /\
  call (by_keyword (PyStr "frank")) Kernels.gumbel_only =
    (Returns None, scanned Kernels.gumbel_only).
Proof.
  apply (new_falls_through_to_None Kernels.gumbel_only
           (by_keyword (PyStr "frank")) (PyStr "frank") FRANK).
  - reflexivity.
  - right. exists "frank"%string. split; reflexivity.
  - vm_compute. repeat constructor; discriminate.
Defined.

(** C4, at the input where the code departs from the contract: [FRANK] is
    a member of the enumeration, only the Gumbel class is loaded, and the
    constructor returns [None] where the contract asks for an error. The
    two other cases of the contract are [factory_registered] and
    [factory_unknown]. *)
Theorem factory_unregistered_member_returns_None :
  names (PyEnum FRANK) FRANK /\
  ~ registered FRANK Kernels.gumbel_only /\
  fst (call (by_keyword (PyEnum FRANK)) Kernels.gumbel_only) = Returns None.
Proof.
  split; [left; reflexivity |]. split; [| reflexivity].
  unfold registered. vm_compute. intros H.
  inversion H as [? ? Hk | ? ? Hl]; subst; [discriminate | inversion Hl].
Qed.

End Factory.

(** ** Validation *)

Section Validation.

Implicit Types (k : klass) (a : attrs) (x lo hi : float).

(** Validation reads the model and never writes to it. *)
Lemma check_theta_pure k a : snd (check_theta k a) = a.
Proof.
  unfold check_theta. eff.
  destruct (unpack_interval (theta_interval k)) as [[lo hi] | e]; cbn; [| reflexivity].
  destruct (float_le_val lo (theta a)) as [[|] | e]; cbn; [| | reflexivity].
  - destruct (val_le_float (theta a) hi) as [inside | e]; cbn; [| reflexivity].
    destruct (negb inside || _); [destruct (copula_type k) |]; reflexivity.
  - destruct (copula_type k); reflexivity.
Qed.

Lemma check_fit_pure k a : snd (check_fit k a) = a.
Proof.
  unfold check_fit. eff.
  destruct (negb (truthy (theta a))); [reflexivity | apply check_theta_pure].
Qed.

(** The verdict of [check_theta] on a number, for a class that declares a
    family and a two-sided interval. *)
Lemma check_theta_number k a t lo hi x :
  copula_type k = Some t ->
  theta_interval k = [lo; hi] ->
  theta a = PyFloat x ->
  check_theta k a =
  (if in_limits lo hi (invalid_thetas k) x then Returns tt else Raises ValueError, a).
Proof.
  intros Hk Hi Hx. unfold check_theta, in_limits. eff.
  rewrite Hi. cbn. rewrite Hx, Hk. cbn.
  destruct (SFleb lo x); cbn; [| reflexivity].
  destruct (SFleb x hi); cbn; [| reflexivity].
  destruct (existsb (SFeqb x) (invalid_thetas k)); reflexivity.
Qed.

(** [nan] fails the chained comparison, so it is out of limits. *)
Example check_theta_nan :
  fst (check_theta Kernels.Gumbel (set_theta (PyFloat f_nan) unfit)) = Raises ValueError.
Proof. reflexivity. Qed.

(** On a plain [Bivariate] the empty interval cannot be unpacked. *)
Example check_theta_base_class :
  fst (check_theta Bivariate (set_theta (PyFloat f_one) unfit)) = Raises ValueError.
Proof. reflexivity. Qed.

(** [check_fit] on a model whose parameter was never set. *)
Lemma check_fit_unset k a :
  theta a = PyNone -> check_fit k a = (Raises NotFittedError, a).
Proof. intros H. unfold check_fit. eff. rewrite H. reflexivity. Qed.

(** [check_fit] on a number: zero counts as unset, anything else goes to
    [check_theta]. *)
Lemma check_fit_number k a x :
  theta a = PyFloat x ->
  check_fit k a =
  if SFeqb x f_zero then (Raises NotFittedError, a) else check_theta k a.
Proof.
  intros H. unfold check_fit. eff. rewrite H. cbn.
  destruct (SFeqb x f_zero); reflexivity.
Qed.

(** [_compute_theta] stores what the family computed, then validates. *)
Lemma compute_theta_stores k a v :
  compute_theta k a = Returns v ->
  _compute_theta k a = check_theta k (set_theta v a).
Proof.
  intros H. unfold _compute_theta. eff. rewrite H. cbn.
  destruct (check_theta k (set_theta v a)) as [[u | e] a']; [destruct u |]; reflexivity.
Qed.

Lemma compute_theta_raises k a e :
  compute_theta k a = Raises e -> _compute_theta k a = (Raises e, a).
Proof. intros H. unfold _compute_theta. eff. rewrite H. reflexivity. Qed.

(** C8. For every model of a family whose [theta] is a number outside
    [theta_interval] or among [invalid_thetas], [check_theta] raises
    [ValueError] and leaves the model as it was: the parameter is neither
    clamped nor replaced. The same verdict comes out of [check_fit] for a
    nonzero [theta], and out of the fitting step that has just stored such
    a value. *)
Theorem check_theta_rejects_invalid k a t lo hi x :
  copula_type k = Some t ->
  theta_interval k = [lo; hi] ->
  theta a = PyFloat x ->
  negb (SFleb lo x && SFleb x hi) || existsb (SFeqb x) (invalid_thetas k) = true ->
  check_theta k a = (Raises ValueError, a) /\
  (SFeqb x f_zero = false -> check_fit k a = (Raises ValueError, a)) /\
  (forall a0, compute_theta k a0 = Returns (PyFloat x) ->
     _compute_theta k a0 = (Raises ValueError, set_theta (PyFloat x) a0)).
Proof.
  intros Hk Hi Hx Hbad.
  assert (Hlim : in_limits lo hi (invalid_thetas k) x = false).
  { unfold in_limits. destruct (SFleb lo x && SFleb x hi); cbn in *;
      [rewrite Hbad |]; reflexivity. }
  repeat split.
  - rewrite (check_theta_number k a t lo hi x Hk Hi Hx), Hlim. reflexivity.
  - intros Hnz. rewrite (check_fit_number k a x Hx), Hnz.
    rewrite (check_theta_number k a t lo hi x Hk Hi Hx), Hlim. reflexivity.
  - intros a0 Hc. rewrite (compute_theta_stores k a0 _ Hc).
    rewrite (check_theta_number k (set_theta (PyFloat x) a0) t lo hi x Hk Hi eq_refl), Hlim.
    reflexivity.
Qed.

Lemma check_theta_rejects_invalid_witness :
  let a := set_theta (PyFloat Kernels.f_half) unfit in
  check_theta Kernels.Gumbel a = (Raises ValueError, a) /\
  (SFeqb Kernels.f_half f_zero = false ->
   check_fit Kernels.Gumbel a = (Raises ValueError, a)) /\
  (forall a0, compute_theta Kernels.Gumbel a0 = Returns (PyFloat Kernels.f_half) ->
     _compute_theta Kernels.Gumbel a0 =
     (Raises ValueError, set_theta (PyFloat Kernels.f_half) a0)).
Proof.
  apply (check_theta_rejects_invalid Kernels.Gumbel
           (set_theta (PyFloat Kernels.f_half) unfit) GUMBEL f_one f_inf Kernels.f_half);
    reflexivity.
Defined.

(** C2, at the input where the code departs from the claim: an
    Independence model whose [theta] is set to zero, a value inside its
    interval ([check_theta] accepts it), is reported as not fitted by
    [check_fit] and by the query guarded with it. The two cases of the
    claim that hold are [check_fit_unset] and [check_fit_number]. *)
Theorem check_fit_takes_zero_for_unset :
  let a := {| theta := PyFloat f_zero; tau := PyFloat f_zero; random_seed := None |} in
  check_theta Kernels.Independence a = (Returns tt, a) /\
  check_fit Kernels.Independence a = (Raises NotFittedError, a) /\
  partial_derivative_scalar Kernels.Independence Kernels.f_half Kernels.f_half f_zero a =
    (Raises NotFittedError, a).
Proof. repeat split. Qed.

End Validation.

(** ** Ordering of binary64 numbers *)

Section FloatOrder.

Lemma SFcompare_swap (x y : float) :
  SFcompare y x = option_map CompOpp (SFcompare x y).
Proof.
  destruct x as [sx | sx | | sx mx ex], y as [sy | sy | | sy my ey]; cbn;
    try reflexivity;
    try (destruct sx; reflexivity);
    try (destruct sy; reflexivity);
    try (destruct sx, sy; reflexivity).
  destruct sx, sy; cbn; try reflexivity;
    rewrite (Z.compare_antisym ex ey);
    destruct (ex ?= ey)%Z; cbn; try reflexivity;
    change (Pos.compare_cont Eq my mx) with (Pos.compare my mx);
    change (Pos.compare_cont Eq mx my) with (Pos.compare mx my);
    rewrite (Pos.compare_antisym mx my);
    destruct (mx ?= my)%positive; reflexivity.
Qed.

(** [x <= y] rules out [y < x]. *)
Lemma SFleb_not_gt (x y : float) : SFleb x y = true -> SFltb y x = false.
Proof.
  unfold SFleb, SFltb. rewrite (SFcompare_swap x y).
  destruct (SFcompare x y) as [[| |] |]; cbn; intros H; try reflexivity; discriminate.
Qed.

End FloatOrder.

(** ** Fitting *)

Section Fitting.

Variable kendalltau : list float -> list float -> float.

Implicit Types (k : klass) (a : attrs) (X : list (float * float)).

(** [fit] stores the rank correlation before anything else. *)
Lemma fit_unfold k X a :
  fit kendalltau k X a =
  _compute_theta k (set_tau (PyFloat (kendalltau (map fst X) (map snd X))) a).
Proof.
  unfold fit, split_matrix. eff.
  destruct (_compute_theta k _) as [[u | e] a']; reflexivity.
Qed.

(** When the family cannot compute a parameter, [tau] stays stored. *)
Lemma fit_compute_raises k X a e :
  let a1 := set_tau (PyFloat (kendalltau (map fst X) (map snd X))) a in
  compute_theta k a1 = Raises e -> fit kendalltau k X a = (Raises e, a1).
Proof. intros a1 H. rewrite fit_unfold. apply compute_theta_raises, H. Qed.

(** C1, as the code has it. [fit] stores [tau], then stores the computed
    [theta], then validates. For a model of a family whose kernel computes
    the number [x]: when [x] lies within the limits, [fit] returns with
    both parameters set and [theta] valid; when it does not, [fit] raises
    [ValueError] and both parameters stay set on the model, [theta]
    holding the rejected value. *)
Theorem fit_stores_then_validates k X a t lo hi x :
  copula_type k = Some t ->
  theta_interval k = [lo; hi] ->
  compute_theta k (set_tau (PyFloat (kendalltau (map fst X) (map snd X))) a) =
    Returns (PyFloat x) ->
  fit kendalltau k X a =
  (if in_limits lo hi (invalid_thetas k) x then Returns tt else Raises ValueError,
   {| theta := PyFloat x;
      tau := PyFloat (kendalltau (map fst X) (map snd X));
      random_seed := random_seed a |}).
Proof.
  intros Hk Hi Hc. rewrite fit_unfold, (compute_theta_stores _ _ _ Hc).
  exact (check_theta_number k
           (set_theta (PyFloat x)
              (set_tau (PyFloat (kendalltau (map fst X) (map snd X))) a))
           t lo hi x Hk Hi eq_refl).
Qed.

End Fitting.

Lemma fit_stores_then_validates_witness :
  fit Kernels.kendalltau_discordant Kernels.Gumbel Kernels.discordant unfit =
  (if in_limits f_one f_inf [] Kernels.f_half then Returns tt else Raises ValueError,
   {| theta := PyFloat Kernels.f_half;
      tau := PyFloat f_minus_one;
      random_seed := None |}).
Proof.
  apply (fit_stores_then_validates Kernels.kendalltau_discordant Kernels.Gumbel
           Kernels.discordant unfit GUMBEL f_one f_inf Kernels.f_half);
    reflexivity.
Defined.

(** C1 as stated fails: on two discordant observations the Gumbel-like
    family computes [theta = 0.5], outside [[1, inf]]; [fit] raises
    [ValueError], and the model it leaves holds both [tau] and the
    rejected [theta]. *)
Lemma fit_failure_is_not_atomic :
  in_limits f_one f_inf [] Kernels.f_half = false /\
  fit Kernels.kendalltau_discordant Kernels.Gumbel Kernels.discordant unfit =
  (Raises ValueError,
   {| theta := PyFloat Kernels.f_half; tau := PyFloat f_minus_one; random_seed := None |}) /\
  snd (fit Kernels.kendalltau_discordant Kernels.Gumbel Kernels.discordant unfit) <> unfit.
Proof. repeat split. discriminate. Qed.

(** ** Persistence *)

Section Persistence.

Implicit Types (st : class_state) (d : gmap string pyval) (t : CopulaTypes).

(** [from_dict] on a record that names a registered family: the model of
    the first matching class, with the record's parameters stored as they
    are. *)
Lemma from_dict_registered st d v t th ta :
  d !! "copula_type" = Some v ->
  d !! "theta" = Some th ->
  d !! "tau" = Some ta ->
  names v t ->
  registered t st ->
  exists k,
    In k (scan st) /\ copula_type k = Some t /\
    from_dict d st =
    (Returns {| cls := k; self := {| theta := th; tau := ta; random_seed := None |} |},
     scanned st).
Proof.
  intros Hv Hth Hta Hn Hreg.
  destruct (factory_registered st v t None Hn Hreg) as (k & Hin & Hk & Hcall).
  exists k. repeat split; try assumption.
  unfold from_dict, getitem, mbind, Eff_bind, lift, by_keyword.
  rewrite Hv, Hcall, Hth, Hta. reflexivity.
Qed.

(** [from_dict] on a record whose family is an ASCII string naming no
    member. *)
Lemma from_dict_unknown st d s :
  d !! "copula_type" = Some (PyStr s) ->
  is_ascii s = true ->
  member (upper s) = None ->
  from_dict d st = (Raises ValueError, st).
Proof.
  intros Hv Hasc Hm.
  unfold from_dict, getitem, mbind, Eff_bind, lift, by_keyword.
  rewrite Hv, (factory_unknown st (PyStr s) None); [reflexivity | discriminate | exact Hm |].
  intros s' [= <-]. exact Hasc.
Qed.

Lemma upper_name t : upper (name t) = name t.
Proof. destruct t; reflexivity. Qed.

(** C3, as the code has it. [from_dict] does not validate: for every
    record that names a registered family, whatever its [theta] and [tau]
    are, it returns a model of that family holding exactly these two
    values. A [theta] outside the limits is only noticed by a later
    [check_theta]. *)
Theorem from_dict_stores_unvalidated st d v t th ta :
  d !! "copula_type" = Some v ->
  d !! "theta" = Some th ->
  d !! "tau" = Some ta ->
  names v t ->
  registered t st ->
  exists m,
    from_dict d st = (Returns m, scanned st) /\
    copula_type (cls m) = Some t /\
    theta (self m) = th /\ tau (self m) = ta.
Proof.
  intros Hv Hth Hta Hn Hreg.
  destruct (from_dict_registered st d v t th ta Hv Hth Hta Hn Hreg) as (k & _ & Hk & Hfd).
  eexists. split; [exact Hfd |]. cbn. auto.
Qed.

Lemma from_dict_stores_unvalidated_witness :
  exists m,
    from_dict Kernels.edited_record Kernels.gumbel_only =
      (Returns m, scanned Kernels.gumbel_only) /\
    copula_type (cls m) = Some GUMBEL /\
    theta (self m) = PyFloat Kernels.f_half /\ tau (self m) = PyFloat f_minus_one.
Proof.
  apply (from_dict_stores_unvalidated Kernels.gumbel_only Kernels.edited_record
           (PyStr "GUMBEL") GUMBEL (PyFloat Kernels.f_half) (PyFloat f_minus_one)).
  - reflexivity.
  - reflexivity.
  - reflexivity.
  - right. exists "GUMBEL"%string. split; reflexivity.
  - unfold registered. vm_compute. constructor. reflexivity.
Defined.

(** C3 as stated fails: the record names the Gumbel-like family with
    [theta = 0.5], outside [[1, inf]], and [from_dict] returns the model
    with that parameter instead of raising. *)
Lemma from_dict_accepts_invalid_theta :
  in_limits f_one f_inf [] Kernels.f_half = false /\
  fst (from_dict Kernels.edited_record Kernels.gumbel_only) =
  Returns {| cls := Kernels.Gumbel;
             self := {| theta := PyFloat Kernels.f_half;
                        tau := PyFloat f_minus_one;
                        random_seed := None |} |}.
Proof. split; reflexivity. Qed.

(** C6, as the code has it. For every model [m] of a family that has a
    class in the subclass scan, [from_dict (to_dict m)] is a model of the
    same family with the same [theta] and the same [tau]; and a record
    whose family is an ASCII name outside the enumeration is refused with
    [ValueError]. *)
Theorem dict_round_trip st (m : instance) t d_bad bad :
  copula_type (cls m) = Some t ->
  registered t st ->
  d_bad !! "copula_type" = Some (PyStr bad) ->
  is_ascii bad = true ->
  member (upper bad) = None ->
  (exists d m',
     to_dict m = Returns d /\
     from_dict d st = (Returns m', scanned st) /\
     copula_type (cls m') = Some t /\
     theta (self m') = theta (self m) /\ tau (self m') = tau (self m)) /\
  from_dict d_bad st = (Raises ValueError, st).
Proof.
  intros Hk Hreg Hbad Hasc Hm.
  split; [| exact (from_dict_unknown st d_bad bad Hbad Hasc Hm)].
  unfold to_dict. rewrite Hk.
  set (d := <["copula_type" := PyStr (name t)]> _).
  assert (Hn : names (PyStr (name t)) t).
  { right. exists (name t). split; [reflexivity | apply upper_name]. }
  destruct (from_dict_registered st d (PyStr (name t)) t (theta (self m)) (tau (self m)))
    as (k & _ & Hk' & Hfd); try assumption.
  - subst d. apply lookup_insert_eq.
  - subst d. rewrite lookup_insert_ne by discriminate. apply lookup_insert_eq.
  - subst d. do 2 rewrite lookup_insert_ne by discriminate. apply lookup_insert_eq.
  - exists d. eexists. split; [reflexivity |]. split; [exact Hfd |]. cbn. auto.
Qed.

Lemma dict_round_trip_witness :
  (exists d m',
     to_dict Kernels.gumbel_model = Returns d /\
     from_dict d Kernels.gumbel_only = (Returns m', scanned Kernels.gumbel_only) /\
     copula_type (cls m') = Some GUMBEL /\
     theta (self m') = theta (self Kernels.gumbel_model) /\
     tau (self m') = tau (self Kernels.gumbel_model)) /\
  from_dict Kernels.student_record Kernels.gumbel_only =
    (Raises ValueError, Kernels.gumbel_only).
Proof.
  apply (dict_round_trip Kernels.gumbel_only Kernels.gumbel_model GUMBEL
           Kernels.student_record "student").
  - reflexivity.
  - unfold registered. vm_compute. constructor. reflexivity.
  - reflexivity.
  - reflexivity.
  - reflexivity.
Defined.

(** C6 as stated fails for a fitted model whose family has no class in the
    scan: the Independence class was defined after the scan was cached,
    [fit] returns on the model, [to_dict] writes its record, and
    [from_dict] on that record raises [AttributeError] instead of giving
    the model back. *)
Lemma dict_round_trip_fails_outside_scan :
  fst (fit Kernels.kendalltau_discordant Kernels.Independence Kernels.discordant unfit) =
    Returns tt /\
  ~ registered INDEPENDENCE Scenarios.independence_late /\
  exists d,
    to_dict Scenarios.fitted_independence = Returns d /\
    fst (from_dict d Scenarios.independence_late) = Raises AttributeError.
Proof.
  split; [reflexivity |]. split.
  - unfold registered. vm_compute. intros H.
    inversion H as [? ? Hk | ? ? Hl]; subst; [discriminate | inversion Hl].
  - eexists. split; reflexivity.
Qed.

End Persistence.

(** ** Sampling *)

Section Sampling.

Variable G : Type.
Variable np_random_uniform : nat -> G -> list float * G.
Variable np_random_seed : Z -> G.

Implicit Types (k : klass) (a : attrs) (g : G).

(** The body of [sample] on a model whose [tau] is a number: the range
    test, then two draws, [v] before [c], then the family's
    [percent_point(c, v)] stacked against [v]. *)
Lemma sample_body_number k a n g t :
  tau a = PyFloat t ->
  fst (sample_body G np_random_uniform k a n g) =
  if SFltb f_one t || SFltb t f_minus_one then Raises ValueError
  else
    let v := fst (np_random_uniform n g) in
    let c := fst (np_random_uniform n (snd (np_random_uniform n g))) in
    obind (percent_point k a c v) (fun u => column_stack u v).
Proof.
  intros Ht. unfold sample_body, uniform. eff. rewrite Ht. cbn.
  destruct (SFltb f_one t); cbn; [reflexivity |].
  destruct (SFltb t f_minus_one); cbn; [reflexivity |].
  destruct (np_random_uniform n g) as [v g1]; cbn.
  destruct (np_random_uniform n g1) as [c g2]; cbn.
  destruct (percent_point k a c v) as [u | e]; cbn; [| reflexivity].
  destruct (column_stack u v); reflexivity.
Qed.

(** On a model whose [tau] was never set the range test itself fails. *)
Lemma sample_tau_unset k a n g :
  tau a = PyNone -> sample G np_random_uniform np_random_seed k a n g = Raises TypeError.
Proof. intros Ht. unfold sample, sample_body. eff. rewrite Ht. reflexivity. Qed.

(** C5, as the code has it. [sample] tests [tau] and nothing else: for
    every model whose [tau] is a number above 1 or below -1 it raises
    [ValueError]; for every other number it draws and returns what the
    family's [percent_point] gives, without looking at [theta]. *)
Theorem sample_tests_tau_only k a n g t :
  tau a = PyFloat t ->
  sample G np_random_uniform np_random_seed k a n g =
  if SFltb f_one t || SFltb t f_minus_one then Raises ValueError
  else
    let start := match random_seed a with
                 | None => g
                 | Some z => np_random_seed z
                 end in
    let v := fst (np_random_uniform n start) in
    let c := fst (np_random_uniform n (snd (np_random_uniform n start))) in
    obind (percent_point k a c v) (fun u => column_stack u v).
Proof. intros Ht. unfold sample. apply sample_body_number, Ht. Qed.

Lemma Forall_combine_unit (u v : list float) :
  Forall (fun x => in_unit x = true) u ->
  Forall (fun x => in_unit x = true) v ->
  Forall (fun p => in_unit (fst p) = true /\ in_unit (snd p) = true) (combine u v).
Proof.
  intros Hu. revert v. induction Hu as [| x u Hx _ IH]; intros v Hv; cbn.
  - constructor.
  - destruct Hv as [| y v Hy Hv]; constructor; cbn; auto.
Qed.

(** C9. For every model whose [tau] is a number in [[-1, 1]] and every
    [n], given a generator whose draws are [n] values of the unit
    interval and a family whose [percent_point] maps equally long arrays
    of the unit interval to one of that length in the unit interval:
    [sample(n)] returns exactly [n] rows [(u, v)], where [v] is the first
    draw, [c] the second and [u = percent_point(c, v)], and every
    coordinate lies in [[0, 1]]. *)
Theorem sample_shape_and_domain k a n g t :
  tau a = PyFloat t ->
  SFleb f_minus_one t = true ->
  SFleb t f_one = true ->
  (forall m g', length (fst (np_random_uniform m g')) = m /\
                Forall (fun x => in_unit x = true) (fst (np_random_uniform m g'))) ->
  (forall c v, length c = length v ->
     Forall (fun x => in_unit x = true) c ->
     Forall (fun x => in_unit x = true) v ->
     exists u, percent_point k a c v = Returns u /\ length u = length v /\
               Forall (fun x => in_unit x = true) u) ->
  let start := match random_seed a with
               | None => g
               | Some z => np_random_seed z
               end in
  let v := fst (np_random_uniform n start) in
  let c := fst (np_random_uniform n (snd (np_random_uniform n start))) in
  exists u,
    percent_point k a c v = Returns u /\
    sample G np_random_uniform np_random_seed k a n g = Returns (combine u v) /\
    length (combine u v) = n /\
    Forall (fun p => in_unit (fst p) = true /\ in_unit (snd p) = true) (combine u v).
Proof.
  intros Ht Hlo Hhi Hgen Hker start v c.
  destruct (Hgen n start) as [Hlv Hv].
  destruct (Hgen n (snd (np_random_uniform n start))) as [Hlc Hc].
  fold v in Hlv, Hv. fold c in Hlc, Hc.
  destruct (Hker c v) as (u & Hu & Hlu & Huu); [congruence | assumption | assumption |].
  exists u. split; [exact Hu |].
  split; [| split].
  - unfold sample. fold start. rewrite (sample_body_number k a n start t Ht).
    rewrite (SFleb_not_gt _ _ Hhi), (SFleb_not_gt _ _ Hlo). cbn.
    fold v. fold c. rewrite Hu. cbn. unfold column_stack.
    rewrite Hlu, Nat.eqb_refl. reflexivity.
  - rewrite length_combine, Hlu, Hlv. apply Nat.min_id.
  - apply Forall_combine_unit; assumption.
Qed.

End Sampling.

Lemma sample_tests_tau_only_witness :
  sample nat Kernels.steady_uniform Kernels.steady_seed Kernels.Independence
    (set_tau (PyFloat Kernels.f_two) unfit) 3 0%nat = Raises ValueError.
Proof.
  apply (sample_tests_tau_only nat Kernels.steady_uniform Kernels.steady_seed
           Kernels.Independence (set_tau (PyFloat Kernels.f_two) unfit) 3 0%nat
           Kernels.f_two).
  reflexivity.
Defined.

(** C5 as stated fails for models that are not fit: with [tau] unset the
    range test raises [TypeError], not [ValueError]; with [tau] set and
    [theta] unset, [sample] returns rows. *)
Lemma sample_on_unfit_model :
  sample nat Kernels.steady_uniform Kernels.steady_seed Kernels.Independence
    unfit 3 0%nat = Raises TypeError /\
  check_fit Kernels.Independence (set_tau (PyFloat Kernels.f_half) unfit) =
    (Raises NotFittedError, set_tau (PyFloat Kernels.f_half) unfit) /\
  sample nat Kernels.steady_uniform Kernels.steady_seed Kernels.Independence
    (set_tau (PyFloat Kernels.f_half) unfit) 3 0%nat =
  Returns (repeat (Kernels.f_quarter, Kernels.f_half) 3).
Proof. repeat split. Qed.

Lemma steady_uniform_unit (m g : nat) :
  length (fst (Kernels.steady_uniform m g)) = m /\
  Forall (fun x => in_unit x = true) (fst (Kernels.steady_uniform m g)).
Proof.
  unfold Kernels.steady_uniform. cbn. split; [apply repeat_length |].
  apply List.Forall_forall. intros x Hx. apply repeat_spec in Hx. subst x.
  destruct (Nat.even g); reflexivity.
Qed.

Lemma sample_shape_and_domain_witness :
  let a := {| theta := PyFloat f_zero; tau := PyFloat f_zero; random_seed := Some 7 |} in
  let v := fst (Kernels.steady_uniform 3 7%nat) in
  let c := fst (Kernels.steady_uniform 3 (snd (Kernels.steady_uniform 3 7%nat))) in
  exists u,
    percent_point Kernels.Independence a c v = Returns u /\
    sample nat Kernels.steady_uniform Kernels.steady_seed Kernels.Independence a 3 0%nat =
      Returns (combine u v) /\
    length (combine u v) = 3%nat /\
    Forall (fun p => in_unit (fst p) = true /\ in_unit (snd p) = true) (combine u v).
Proof.
  apply (sample_shape_and_domain nat Kernels.steady_uniform Kernels.steady_seed
           Kernels.Independence
           {| theta := PyFloat f_zero; tau := PyFloat f_zero; random_seed := Some 7 |}
           3 0%nat f_zero).
  - reflexivity.
  - reflexivity.
  - reflexivity.
  - apply steady_uniform_unit.
  - intros c v Hl Hc _. exists c. cbn. auto.
Defined.

(** * Further properties of the base class *)

(** ** The class tree and the scan *)

Section ClassTree.

Lemma pyclass_nested_ind (P : pyclass -> Prop) :
  (forall k subs, Forall P subs -> P (PyClass k subs)) -> forall c, P c.
Proof.
  intros Hstep. fix IH 1. intros [k subs]. apply Hstep.
  induction subs as [| s subs IHs]; constructor; [apply IH | exact IHs].
Qed.

Lemma get_subclasses_finds d c : descends d c -> In (class_of d) (_get_subclasses c).
Proof.
  induction 1 as [k subs s Hs | k subs s d Hs _ IH]; cbn;
    apply in_flat_map; exists s; (split; [exact Hs |]).
  - left. reflexivity.
  - right. exact IH.
Qed.

(** [_get_subclasses] returns the classes of exactly the descendants of a
    class, whatever their depth. *)
Theorem get_subclasses_descendants c x :
  In x (_get_subclasses c) <-> exists d, descends d c /\ class_of d = x.
Proof.
  split.
  - revert x. induction c as [k subs IH] using pyclass_nested_ind. intros x Hx.
    cbn in Hx. apply in_flat_map in Hx. destruct Hx as (s & Hs & [Hx | Hx]).
    + exists s. split; [apply descends_child, Hs | exact Hx].
    + rewrite List.Forall_forall in IH.
      destruct (IH s Hs x Hx) as (d & Hd & Hc).
      exists d. split; [exact (descends_deeper k subs s d Hs Hd) | exact Hc].
  - intros (d & Hd & <-). apply get_subclasses_finds, Hd.
Qed.

Example get_subclasses_of_tree :
  map __name__ (_get_subclasses (PyClass Bivariate [Scenarios.gumbel_tree])) =
  ["Gumbel"; "GumbelVariant"]%string.
Proof. reflexivity. Qed.

Lemma scan_scanned st : scan (scanned st) = scan st.
Proof.
  unfold scan, scanned.
  destruct (bool_decide (_subclasses st = [])) eqn:E.
  - cbn [set_subclasses _subclasses loaded].
    destruct (bool_decide (_get_subclasses (PyClass Bivariate (loaded st)) = []));
      reflexivity.
  - rewrite E. reflexivity.
Qed.

Lemma scanned_scanned st : scanned (scanned st) = scanned st.
Proof.
  unfold scanned.
  destruct (bool_decide (_subclasses st = [])) eqn:E.
  - cbn [set_subclasses _subclasses loaded].
    destruct (bool_decide (_get_subclasses (PyClass Bivariate (loaded st)) = []));
      reflexivity.
  - rewrite E. reflexivity.
Qed.

(** [__new__] in every case of its argument. The string case goes through
    [upper]; it is the code's for ASCII strings. *)
Lemma new_cases kw st :
  __new__ kw st =
  match kw with
  | None | Some PyNone => (Returns (Some (object_new Bivariate)), st)
  | Some v =>
      match resolve v with
      | Some t => (Returns (dispatch t (scan st)), scanned st)
      | None => (Raises ValueError, st)
      end
  end.
Proof.
  destruct kw as [v |]; [| reflexivity].
  destruct (resolve v) as [t |] eqn:Hr.
  - rewrite (new_resolved st v t Hr). destruct v; try reflexivity. discriminate.
  - destruct v; try reflexivity.
    + unfold resolve in Hr. unfold __new__. rewrite Hr. reflexivity.
    + discriminate.
Qed.

(** The call [Bivariate(...)] in every case of its arguments, with the
    same reading of the string case. *)
Lemma call_cases a st :
  call a st =
  match keyword a with
  | None | Some PyNone =>
      (obind (__init__ a (object_new Bivariate)) (fun i => Returns (Some i)), st)
  | Some v =>
      match resolve v with
      | Some t =>
          (match dispatch t (scan st) with
           | Some i => obind (__init__ a i) (fun i' => Returns (Some i'))
           | None => Returns None
           end, scanned st)
      | None => (Raises ValueError, st)
      end
  end.
Proof.
  unfold call, mbind, Eff_bind. rewrite new_cases.
  destruct (keyword a) as [v |].
  - destruct v as [| x | s | t]; cbn [resolve].
    + unfold lift. destruct (__init__ a _); reflexivity.
    + reflexivity.
    + destruct (member (upper s)); [| reflexivity].
      destruct (dispatch _ _); [| reflexivity].
      unfold lift. destruct (__init__ a _); reflexivity.
    + destruct (dispatch _ _); [| reflexivity].
      unfold lift. destruct (__init__ a _); reflexivity.
  - unfold lift. destruct (__init__ a _); reflexivity.
Qed.

(** Constructing twice with the same arguments gives the same result, and
    the second construction leaves the class state as the first left it. *)
Theorem call_twice a st : call a (snd (call a st)) = call a st.
Proof.
  rewrite (call_cases a st).
  destruct (keyword a) as [v |] eqn:Hk; cbn [snd].
  - destruct v as [| x | s | t]; cbn [resolve snd].
    + rewrite call_cases, Hk. reflexivity.
    + rewrite call_cases, Hk. reflexivity.
    + destruct (member (upper s)) as [t |] eqn:Hm; cbn [snd].
      * rewrite call_cases, Hk. cbn [resolve]. rewrite Hm, scan_scanned, scanned_scanned.
        reflexivity.
      * rewrite call_cases, Hk. cbn [resolve]. rewrite Hm. reflexivity.
    + rewrite call_cases, Hk. cbn [resolve]. rewrite scan_scanned, scanned_scanned.
      reflexivity.
  - rewrite call_cases, Hk. reflexivity.
Qed.

End ClassTree.

(** ** The factory, continued *)

Section FactoryMore.

Implicit Types (st : class_state) (t : CopulaTypes) (v : pyval).

(** Once a scan has found classes, classes defined afterwards are not
    seen: [subclasses()] keeps returning the cached list, and a family
    that only a later class declares is answered with [None]. *)
Theorem scan_ignores_later_classes st more v t :
  scan st <> [] ->
  names v t ->
  Forall (fun k => copula_type k <> Some t) (scan st) ->
  let later := {| loaded := loaded (scanned st) ++ more;
                  _subclasses := _subclasses (scanned st) |} in
  scan later = scan st /\
  call (by_keyword v) later = (Returns None, later).
Proof.
  intros Hne Hn Hnone later.
  assert (Hcache : _subclasses later = scan st) by apply scanned_cache.
  assert (Hscan : scan later = scan st).
  { unfold scan. rewrite Hcache, bool_decide_eq_false_2 by exact Hne. reflexivity. }
  assert (Hkeep : scanned later = later).
  { unfold scanned. rewrite Hcache, bool_decide_eq_false_2 by exact Hne. reflexivity. }
  split; [exact Hscan |].
  rewrite call_cases. cbn [by_keyword keyword].
  apply names_resolve in Hn.
  destruct v as [| x | s | t']; unfold resolve in Hn; try discriminate.
  - cbn [resolve]. rewrite Hn, Hscan, Hkeep, (dispatch_none t _ Hnone). reflexivity.
  - injection Hn as ->. cbn [resolve].
    rewrite Hscan, Hkeep, (dispatch_none t _ Hnone). reflexivity.
Qed.

Lemma scan_ignores_later_classes_witness :
  let later := {| loaded := loaded (scanned Kernels.gumbel_only) ++
                            [PyClass Kernels.Independence []];
                  _subclasses := _subclasses (scanned Kernels.gumbel_only) |} in
  scan later = scan Kernels.gumbel_only /\
  call (by_keyword (PyStr "independence")) later = (Returns None, later).
Proof.
  apply (scan_ignores_later_classes Kernels.gumbel_only
           [PyClass Kernels.Independence []] (PyStr "independence") INDEPENDENCE).
  - vm_compute. discriminate.
  - right. exists "independence"%string. split; reflexivity.
  - vm_compute. repeat constructor; discriminate.
Defined.

(** Among several classes of one family the first of the scan is the one
    instantiated. *)
Theorem dispatch_first_match t (l1 l2 : list klass) k :
  Forall (fun c => copula_type c <> Some t) l1 ->
  copula_type k = Some t ->
  dispatch t (l1 ++ k :: l2) = Some (object_new k).
Proof.
  intros Hl1 Hk. induction Hl1 as [| c l1 Hc _ IH]; cbn.
  - rewrite (proj2 (is_family_true t k) Hk). reflexivity.
  - destruct (is_family t c) eqn:E; [| exact IH].
    apply is_family_true in E. contradiction.
Qed.

Lemma dispatch_first_match_witness :
  dispatch GUMBEL ([Kernels.Independence] ++ Kernels.Gumbel :: [Scenarios.GumbelVariant]) =
  Some (object_new Kernels.Gumbel).
Proof.
  apply (dispatch_first_match GUMBEL [Kernels.Independence] [Scenarios.GumbelVariant]
           Kernels.Gumbel).
  - repeat constructor. discriminate.
  - reflexivity.
Defined.

(** A member and any spelling of its name are interchangeable as
    [copula_type]. *)
Theorem name_and_member_agree a s t st :
  keyword a = Some (PyStr s) ->
  upper s = name t ->
  call a st =
  call {| positional := positional a; keyword := Some (PyEnum t); seed := seed a |} st.
Proof.
  intros Hk Hs. rewrite !call_cases, Hk. cbn [keyword resolve].
  rewrite Hs, member_name.
  destruct (dispatch t (scan st)) as [i |]; [| reflexivity].
  unfold __init__. cbn [positional keyword seed]. rewrite Hk. reflexivity.
Qed.

Lemma name_and_member_agree_witness :
  call (by_keyword (PyStr "GumBel")) Kernels.both_loaded =
  call {| positional := None; keyword := Some (PyEnum GUMBEL); seed := None |}
    Kernels.both_loaded.
Proof.
  apply (name_and_member_agree (by_keyword (PyStr "GumBel")) "GumBel" GUMBEL
           Kernels.both_loaded); reflexivity.
Defined.

(** The names of the members identify them: [CopulaTypes[key]] is [t]
    exactly when [key] is the name of [t], and no two members share a
    value. *)
Lemma member_iff_name key t :
  (member key = Some t <-> key = name t) /\
  (forall t', value t' = value t -> t' = t).
Proof.
  split; [split |].
  - apply member_inv.
  - intros ->. apply member_name.
  - intros t'. destruct t, t'; cbn; intros H; try reflexivity; discriminate.
Qed.

End FactoryMore.

Section PositionalFamily.

Variable kendalltau : list float -> list float -> float.

(** Without the [copula_type] keyword the constructor returns a plain
    [Bivariate] and does not scan, whatever is passed by position; fitting
    that object stores [tau] and then fails with [NotImplementedError]. *)
Theorem positional_family_is_ignored a st X :
  keyword a = None ->
  let m := {| cls := Bivariate;
              self := {| theta := PyNone; tau := PyNone; random_seed := seed a |} |} in
  call a st = (Returns (Some m), st) /\
  fit kendalltau (cls m) X (self m) =
  (Raises NotImplementedError,
   {| theta := PyNone;
      tau := PyFloat (kendalltau (map fst X) (map snd X));
      random_seed := seed a |}).
Proof.
  intros Hk m. split.
  - rewrite call_cases, Hk. unfold __init__. rewrite Hk.
    destruct (positional a); reflexivity.
  - reflexivity.
Qed.

End PositionalFamily.

Lemma positional_family_is_ignored_witness :
  let m := {| cls := Bivariate;
              self := {| theta := PyNone; tau := PyNone; random_seed := None |} |} in
  call (by_position (PyEnum GUMBEL)) Kernels.both_loaded =
    (Returns (Some m), Kernels.both_loaded) /\
  fit Kernels.kendalltau_discordant (cls m) Kernels.discordant (self m) =
  (Raises NotImplementedError,
   {| theta := PyNone; tau := PyFloat f_minus_one; random_seed := None |}).
Proof.
  apply (positional_family_is_ignored Kernels.kendalltau_discordant
           (by_position (PyEnum GUMBEL)) Kernels.both_loaded Kernels.discordant).
  reflexivity.
Defined.

(** ** Validation, continued *)

Section ValidationMore.

Implicit Types (k : klass) (a : attrs) (x lo hi : float).

(** On a parameter that is not a number, an unset one included,
    [check_theta] fails in the comparison with [TypeError]. *)
Theorem check_theta_not_a_number k a lo hi :
  theta_interval k = [lo; hi] ->
  (forall x, theta a <> PyFloat x) ->
  check_theta k a = (Raises TypeError, a).
Proof.
  intros Hi Hx. unfold check_theta. eff. rewrite Hi. cbn.
  destruct (theta a) as [| x | s | t]; try reflexivity.
  exfalso. exact (Hx x eq_refl).
Qed.

Lemma check_theta_not_a_number_witness :
  check_theta Kernels.Gumbel unfit = (Raises TypeError, unfit).
Proof.
  apply (check_theta_not_a_number Kernels.Gumbel unfit f_one f_inf).
  - reflexivity.
  - intros x. discriminate.
Defined.

(** A class whose [theta_interval] does not have exactly two elements,
    the base class among them, cannot validate anything: [check_theta]
    raises [ValueError] for every parameter. *)
Theorem check_theta_needs_two_limits k a :
  length (theta_interval k) <> 2%nat ->
  check_theta k a = (Raises ValueError, a).
Proof.
  intros Hl. unfold check_theta. eff.
  destruct (theta_interval k) as [| lo [| hi [| z r]]]; cbn in *;
    try reflexivity; contradiction.
Qed.

Lemma check_theta_needs_two_limits_witness :
  check_theta Bivariate (set_theta (PyFloat Kernels.f_two) unfit) =
  (Raises ValueError, set_theta (PyFloat Kernels.f_two) unfit).
Proof.
  apply (check_theta_needs_two_limits Bivariate). cbn. discriminate.
Defined.

(** For a class that declares limits but no family, a parameter out of
    limits ends in [AttributeError]: the message cannot name the
    family. *)
Theorem check_theta_without_family k a lo hi x :
  copula_type k = None ->
  theta_interval k = [lo; hi] ->
  theta a = PyFloat x ->
  check_theta k a =
  (if in_limits lo hi (invalid_thetas k) x then Returns tt else Raises AttributeError, a).
Proof.
  intros Hk Hi Hx. unfold check_theta, in_limits. eff.
  rewrite Hi. cbn. rewrite Hx, Hk. cbn.
  destruct (SFleb lo x); cbn; [| reflexivity].
  destruct (SFleb x hi); cbn; [| reflexivity].
  destruct (existsb (SFeqb x) (invalid_thetas k)); reflexivity.
Qed.

Lemma check_theta_without_family_witness :
  check_theta Scenarios.Nameless (set_theta (PyFloat Kernels.f_half) unfit) =
  (if in_limits f_one f_inf [] Kernels.f_half then Returns tt else Raises AttributeError,
   set_theta (PyFloat Kernels.f_half) unfit).
Proof.
  apply (check_theta_without_family Scenarios.Nameless
           (set_theta (PyFloat Kernels.f_half) unfit) f_one f_inf Kernels.f_half);
    reflexivity.
Defined.

(** For a model of a family, [check_fit] passes exactly when [theta] is a
    number other than zero that lies within the limits. *)
Theorem check_fit_passes_iff k a t lo hi :
  copula_type k = Some t ->
  theta_interval k = [lo; hi] ->
  check_fit k a = (Returns tt, a) <->
  exists x, theta a = PyFloat x /\ SFeqb x f_zero = false /\
            in_limits lo hi (invalid_thetas k) x = true.
Proof.
  intros Hk Hi. split.
  - intros Hpass. destruct (theta a) as [| x | s | t'] eqn:Hth.
    + rewrite (check_fit_unset k a Hth) in Hpass. discriminate.
    + exists x. rewrite (check_fit_number k a x Hth) in Hpass.
      destruct (SFeqb x f_zero); [discriminate |].
      rewrite (check_theta_number k a t lo hi x Hk Hi Hth) in Hpass.
      destruct (in_limits lo hi (invalid_thetas k) x); [auto | discriminate].
    + unfold check_fit in Hpass. revert Hpass. eff. rewrite Hth. cbn.
      destruct (negb (negb (String.eqb s ""))); [discriminate |].
      rewrite (check_theta_not_a_number k a lo hi Hi); [discriminate |].
      intros y. rewrite Hth. discriminate.
    + unfold check_fit in Hpass. revert Hpass. eff. rewrite Hth. cbn.
      rewrite (check_theta_not_a_number k a lo hi Hi); [discriminate |].
      intros y. rewrite Hth. discriminate.
  - intros (x & Hth & Hnz & Hlim).
    rewrite (check_fit_number k a x Hth), Hnz.
    rewrite (check_theta_number k a t lo hi x Hk Hi Hth), Hlim. reflexivity.
Qed.

Lemma check_fit_passes_iff_witness :
  check_fit Kernels.Gumbel (self Kernels.gumbel_model) =
    (Returns tt, self Kernels.gumbel_model) <->
  exists x, theta (self Kernels.gumbel_model) = PyFloat x /\ SFeqb x f_zero = false /\
            in_limits f_one f_inf [] x = true.
Proof.
  apply (check_fit_passes_iff Kernels.Gumbel (self Kernels.gumbel_model) GUMBEL f_one f_inf);
    reflexivity.
Defined.

(** [partial_derivative_scalar] never changes the model, and asks the
    family for the derivative, on the single row [(U, V)], only after
    [check_fit] has passed. *)
Theorem partial_derivative_scalar_guarded k U V y a :
  partial_derivative_scalar k U V y a =
  (match fst (check_fit k a) with
   | Returns _ => partial_derivative k a [(U, V)] y
   | Raises e => Raises e
   end, a).
Proof.
  unfold partial_derivative_scalar, mbind, Eff_bind.
  pose proof (check_fit_pure k a) as Hp.
  destruct (check_fit k a) as [[u | e] a']; cbn in Hp; subst a'; reflexivity.
Qed.

End ValidationMore.

(** ** Fitting, continued *)

Section FittingMore.

Variable kendalltau : list float -> list float -> float.

Implicit Types (k : klass) (a : attrs) (X : list (float * float)).

(** Whatever the family does, after [fit] the model holds the rank
    correlation of the data as [tau] and its random seed is the same;
    [theta] is the value the family computed, or the old one when the
    family raised. *)
Theorem fit_always_stores_tau k X a :
  let tau' := PyFloat (kendalltau (map fst X) (map snd X)) in
  let a' := snd (fit kendalltau k X a) in
  tau a' = tau' /\
  random_seed a' = random_seed a /\
  match compute_theta k (set_tau tau' a) with
  | Returns v => theta a' = v
  | Raises e => theta a' = theta a /\ fst (fit kendalltau k X a) = Raises e
  end.
Proof.
  intros tau' a'. subst a'. rewrite fit_unfold. fold tau'.
  destruct (compute_theta k (set_tau tau' a)) as [v | e] eqn:Hc.
  - rewrite (compute_theta_stores _ _ _ Hc), check_theta_pure. cbn. auto.
  - rewrite (compute_theta_raises _ _ _ Hc). cbn. auto.
Qed.

(** A model that [fit] returned from passes [check_theta] as it stands. *)
Theorem fit_success_is_valid k X a :
  fst (fit kendalltau k X a) = Returns tt ->
  check_theta k (snd (fit kendalltau k X a)) = (Returns tt, snd (fit kendalltau k X a)).
Proof.
  rewrite fit_unfold.
  set (a1 := set_tau _ a).
  destruct (compute_theta k a1) as [v | e] eqn:Hc.
  - rewrite (compute_theta_stores _ _ _ Hc).
    pose proof (check_theta_pure k (set_theta v a1)) as Hp.
    destruct (check_theta k (set_theta v a1)) as [r a2] eqn:Hct. cbn in *. subst a2.
    intros ->. exact Hct.
  - rewrite (compute_theta_raises _ _ _ Hc). discriminate.
Qed.

End FittingMore.

Lemma fit_success_is_valid_witness :
  check_theta Kernels.Independence
    (snd (fit Kernels.kendalltau_discordant Kernels.Independence Kernels.discordant unfit)) =
  (Returns tt,
   snd (fit Kernels.kendalltau_discordant Kernels.Independence Kernels.discordant unfit)).
Proof.
  apply (fit_success_is_valid Kernels.kendalltau_discordant Kernels.Independence
           Kernels.discordant unfit).
  reflexivity.
Defined.

(** ** Persistence, continued *)

Section PersistenceMore.

Implicit Types (st : class_state) (d : gmap string pyval) (t : CopulaTypes).

(** [to_dict] of a model of a family is a record of exactly three keys:
    the member name in upper case and the two parameters as they are. A
    model without a family has no record: [AttributeError]. *)
Theorem to_dict_shape (i : instance) :
  match copula_type (cls i) with
  | Some t =>
      exists d, to_dict i = Returns d /\
        dom d = ({["copula_type"; "theta"; "tau"]} : gset string) /\
        d !! "copula_type" = Some (PyStr (name t)) /\
        d !! "theta" = Some (theta (self i)) /\
        d !! "tau" = Some (tau (self i))
  | None => to_dict i = Raises AttributeError
  end.
Proof.
  unfold to_dict. destruct (copula_type (cls i)) as [t |]; [| reflexivity].
  eexists. split; [reflexivity |]. split; [| split; [| split]].
  - rewrite !dom_insert_L, dom_empty_L. set_solver.
  - apply lookup_insert_eq.
  - rewrite lookup_insert_ne by discriminate. apply lookup_insert_eq.
  - do 2 rewrite lookup_insert_ne by discriminate. apply lookup_insert_eq.
Qed.

(** A record without the [copula_type] key is refused with [KeyError]
    before anything is constructed or scanned. *)
Theorem from_dict_without_family_key d st :
  d !! "copula_type" = None -> from_dict d st = (Raises KeyError, st).
Proof.
  intros H. unfold from_dict, getitem, mbind, Eff_bind, lift. rewrite H. reflexivity.
Qed.

Lemma from_dict_without_family_key_witness :
  from_dict ∅ Kernels.gumbel_only = (Raises KeyError, Kernels.gumbel_only).
Proof.
  apply (from_dict_without_family_key ∅ Kernels.gumbel_only). reflexivity.
Defined.

(** A record that names a family but lacks [theta], or names a registered
    family but lacks [tau], is refused with [KeyError]; by then the
    constructor has run. A missing [theta] is reported even when the
    family has no class. *)
Theorem from_dict_without_parameter d st v t :
  d !! "copula_type" = Some v ->
  names v t ->
  d !! "theta" = None \/ (registered t st /\ d !! "tau" = None) ->
  from_dict d st = (Raises KeyError, scanned st).
Proof.
  intros Hv Hn Hmiss. apply names_resolve in Hn.
  unfold from_dict, getitem, mbind, Eff_bind, lift, by_keyword.
  rewrite Hv, (call_keyword_resolved st v t None Hn).
  destruct Hmiss as [Hth | [Hreg Hta]].
  - rewrite Hth. destruct (dispatch t (scan st)); reflexivity.
  - destruct (dispatch_some t (scan st) Hreg) as (k & _ & _ & Hd). rewrite Hd. cbn.
    destruct (d !! "theta"); [| reflexivity].
    cbn. rewrite Hta. reflexivity.
Qed.

Lemma from_dict_without_parameter_witness :
  from_dict (<["copula_type" := PyStr "frank"]> ∅) Kernels.gumbel_only =
  (Raises KeyError, scanned Kernels.gumbel_only).
Proof.
  apply (from_dict_without_parameter (<["copula_type" := PyStr "frank"]> ∅)
           Kernels.gumbel_only (PyStr "frank") FRANK).
  - reflexivity.
  - right. exists "frank"%string. split; reflexivity.
  - left. reflexivity.
Defined.

(** A complete record of a family that has no class in the scan fails
    with [AttributeError]: the constructor gave [None], and the first
    assignment is made on it. *)
Theorem from_dict_unregistered d st v t th :
  d !! "copula_type" = Some v ->
  names v t ->
  Forall (fun k => copula_type k <> Some t) (scan st) ->
  d !! "theta" = Some th ->
  from_dict d st = (Raises AttributeError, scanned st).
Proof.
  intros Hv Hn Hnone Hth. apply names_resolve in Hn.
  unfold from_dict, getitem, mbind, Eff_bind, lift, by_keyword.
  rewrite Hv, (call_keyword_resolved st v t None Hn), (dispatch_none t _ Hnone), Hth.
  reflexivity.
Qed.

Lemma from_dict_unregistered_witness :
  from_dict (<["copula_type" := PyStr "frank"]> (<["theta" := PyFloat f_one]> ∅))
    Kernels.gumbel_only =
  (Raises AttributeError, scanned Kernels.gumbel_only).
Proof.
  apply (from_dict_unregistered
           (<["copula_type" := PyStr "frank"]> (<["theta" := PyFloat f_one]> ∅))
           Kernels.gumbel_only (PyStr "frank") FRANK (PyFloat f_one)).
  - reflexivity.
  - right. exists "frank"%string. split; reflexivity.
  - vm_compute. repeat constructor; discriminate.
  - reflexivity.
Defined.

(** Reading a record and writing the model again normalises it: the
    family comes back as the member name in upper case whatever its
    spelling was, keys other than the three are dropped, the parameters
    are unchanged, and the model carries no random seed. *)
Theorem from_dict_then_to_dict d st v t th ta :
  d !! "copula_type" = Some v ->
  d !! "theta" = Some th ->
  d !! "tau" = Some ta ->
  names v t ->
  registered t st ->
  exists m,
    from_dict d st = (Returns m, scanned st) /\
    random_seed (self m) = None /\
    to_dict m =
    Returns (<["copula_type" := PyStr (name t)]>
               (<["theta" := th]> (<["tau" := ta]> ∅))).
Proof.
  intros Hv Hth Hta Hn Hreg.
  destruct (from_dict_registered st d v t th ta Hv Hth Hta Hn Hreg) as (k & _ & Hk & Hfd).
  eexists. split; [exact Hfd |]. split; [reflexivity |].
  unfold to_dict. cbn. rewrite Hk. reflexivity.
Qed.

Lemma from_dict_then_to_dict_witness :
  exists m,
    from_dict Scenarios.loose_record Kernels.gumbel_only =
      (Returns m, scanned Kernels.gumbel_only) /\
    random_seed (self m) = None /\
    to_dict m =
    Returns (<["copula_type" := PyStr "GUMBEL"]>
               (<["theta" := PyFloat Kernels.f_two]>
                  (<["tau" := PyFloat Kernels.f_half]> ∅))).
Proof.
  apply (from_dict_then_to_dict Scenarios.loose_record Kernels.gumbel_only
           (PyStr "gumbel") GUMBEL (PyFloat Kernels.f_two) (PyFloat Kernels.f_half)).
  - reflexivity.
  - reflexivity.
  - reflexivity.
  - right. exists "gumbel"%string. split; reflexivity.
  - unfold registered. vm_compute. constructor. reflexivity.
Defined.

(** A record whose family is [None] is read into a plain [Bivariate]
    holding the parameters, without a scan; that model cannot be written
    back. *)
Theorem from_dict_null_family d st th ta :
  d !! "copula_type" = Some PyNone ->
  d !! "theta" = Some th ->
  d !! "tau" = Some ta ->
  let m := {| cls := Bivariate;
              self := {| theta := th; tau := ta; random_seed := None |} |} in
  from_dict d st = (Returns m, st) /\ to_dict m = Raises AttributeError.
Proof.
  intros Hv Hth Hta m. split; [| reflexivity].
  unfold from_dict, getitem, mbind, Eff_bind, lift, by_keyword.
  rewrite Hv, call_cases. cbn. rewrite Hth, Hta. reflexivity.
Qed.

Lemma from_dict_null_family_witness :
  let d : gmap string pyval :=
    <["copula_type" := PyNone]> (<["theta" := PyFloat f_one]> (<["tau" := PyFloat f_zero]> ∅)) in
  let m := {| cls := Bivariate;
              self := {| theta := PyFloat f_one; tau := PyFloat f_zero;
                         random_seed := None |} |} in
  from_dict d Kernels.gumbel_only = (Returns m, Kernels.gumbel_only) /\
  to_dict m = Raises AttributeError.
Proof.
  apply (from_dict_null_family
           (<["copula_type" := PyNone]>
              (<["theta" := PyFloat f_one]> (<["tau" := PyFloat f_zero]> ∅)))
           Kernels.gumbel_only (PyFloat f_one) (PyFloat f_zero));
    reflexivity.
Defined.

(** A record whose family is a number is refused with [ValueError], and
    nothing is scanned. *)
Theorem from_dict_numeric_family d st x :
  d !! "copula_type" = Some (PyFloat x) ->
  from_dict d st = (Raises ValueError, st).
Proof.
  intros Hv. unfold from_dict, getitem, mbind, Eff_bind, lift, by_keyword.
  rewrite Hv, call_cases. reflexivity.
Qed.

Lemma from_dict_numeric_family_witness :
  from_dict (<["copula_type" := PyFloat f_one]> ∅) Kernels.gumbel_only =
  (Raises ValueError, Kernels.gumbel_only).
Proof.
  apply (from_dict_numeric_family (<["copula_type" := PyFloat f_one]> ∅)
           Kernels.gumbel_only f_one).
  reflexivity.
Defined.

End PersistenceMore.

(** ** Sampling, continued *)

Section SamplingMore.

Variable G : Type.
Variable np_random_uniform : nat -> G -> list float * G.
Variable np_random_seed : Z -> G.

Implicit Types (k : klass) (a : attrs) (g : G).

(** What [sample] takes from the generator: nothing when [tau] is out of
    range, and otherwise exactly two draws of [n_samples] values, whether
    or not the family's [percent_point] then succeeds. *)
Theorem sample_body_draws k a n g t :
  tau a = PyFloat t ->
  snd (sample_body G np_random_uniform k a n g) =
  if SFltb f_one t || SFltb t f_minus_one then g
  else snd (np_random_uniform n (snd (np_random_uniform n g))).
Proof.
  intros Ht. unfold sample_body, uniform. eff. rewrite Ht. cbn.
  destruct (SFltb f_one t); cbn; [reflexivity |].
  destruct (SFltb t f_minus_one); cbn; [reflexivity |].
  destruct (np_random_uniform n g) as [v g1]; cbn.
  destruct (np_random_uniform n g1) as [c g2]; cbn.
  destruct (percent_point k a c v) as [u | e]; cbn; [| reflexivity].
  destruct (column_stack u v); reflexivity.
Qed.

(** On a model whose [tau] is not a number, as before any fit, [sample]
    fails in the range test with [TypeError] and draws nothing. *)
Theorem sample_body_tau_not_a_number k a n g :
  (forall t, tau a <> PyFloat t) ->
  sample_body G np_random_uniform k a n g = (Raises TypeError, g).
Proof.
  intros Ht. unfold sample_body. eff.
  destruct (tau a) as [| t | s | e]; try reflexivity.
  exfalso. exact (Ht t eq_refl).
Qed.

(** A [tau] that is [nan], which is what the rank correlation of a
    constant column is, passes the range test: [sample] goes on to draw
    and to call the family. *)
Theorem sample_accepts_nan_tau k a n g :
  tau a = PyFloat f_nan ->
  sample G np_random_uniform np_random_seed k a n g =
  let start := match random_seed a with
               | None => g
               | Some z => np_random_seed z
               end in
  let v := fst (np_random_uniform n start) in
  let c := fst (np_random_uniform n (snd (np_random_uniform n start))) in
  obind (percent_point k a c v) (fun u => column_stack u v).
Proof.
  intros Ht. unfold sample.
  rewrite (sample_body_number G np_random_uniform k a n _ f_nan Ht). reflexivity.
Qed.

End SamplingMore.

Lemma sample_body_draws_witness :
  snd (sample_body nat Kernels.steady_uniform Kernels.Independence
         (set_tau (PyFloat Kernels.f_half) unfit) 3 0%nat) = 2%nat.
Proof.
  apply (sample_body_draws nat Kernels.steady_uniform Kernels.Independence
           (set_tau (PyFloat Kernels.f_half) unfit) 3 0%nat Kernels.f_half).
  reflexivity.
Defined.

Lemma sample_body_tau_not_a_number_witness :
  sample_body nat Kernels.steady_uniform Kernels.Gumbel unfit 3 0%nat =
  (Raises TypeError, 0%nat).
Proof.
  apply (sample_body_tau_not_a_number nat Kernels.steady_uniform Kernels.Gumbel unfit 3 0%nat).
  intros t. discriminate.
Defined.

Lemma sample_accepts_nan_tau_witness :
  sample nat Kernels.steady_uniform Kernels.steady_seed Kernels.Independence
    (set_tau (PyFloat f_nan) unfit) 2 0%nat =
  Returns [(Kernels.f_quarter, Kernels.f_half); (Kernels.f_quarter, Kernels.f_half)].
Proof.
  apply (sample_accepts_nan_tau nat Kernels.steady_uniform Kernels.steady_seed
           Kernels.Independence (set_tau (PyFloat f_nan) unfit) 2 0%nat).
  reflexivity.
Defined.

(** ** The helpers of the test suite *)

Section TestHelpers.

Import Tests.

Implicit Types (x y epsilon : float) (xs ys : list item).

(** A number is within any positive [epsilon] of itself unless it is
    [nan] or infinite: for those the difference is [nan], and the
    comparison fails even against the same value. *)
Theorem compare_values_epsilon_self x epsilon :
  SFltb f_zero epsilon = true ->
  compare_values_epsilon x x epsilon =
  match x with
  | S754_nan | S754_infinity _ => false
  | _ => true
  end.
Proof.
  intros Heps. unfold compare_values_epsilon.
  destruct x as [s | s | | s m e]; cbn.
  - destruct s; exact Heps.
  - destruct s; reflexivity.
  - reflexivity.
  - rewrite Z.sub_diag. cbn. exact Heps.
Qed.

Lemma compare_values_epsilon_self_witness :
  compare_values_epsilon f_inf f_inf default_epsilon = false.
Proof.
  apply (compare_values_epsilon_self f_inf default_epsilon). reflexivity.
Defined.

(** The loop of [compare_nested_iterables] over the zipped elements. *)
Lemma compare_nested_iterables_cons (f s : item) xs ys epsilon :
  compare_nested_iterables (Lst (f :: xs)) (Lst (s :: ys)) epsilon =
  and_then
    match f with
    | Lst _ => compare_nested_iterables f s epsilon
    | _ => Pass
    end
    (and_then
       match f with
       | Num x => assert_close x s epsilon
       | _ => Pass
       end
       (compare_nested_iterables (Lst xs) (Lst ys) epsilon)).
Proof. reflexivity. Qed.

Lemma compare_nested_iterables_nil_r xs epsilon :
  compare_nested_iterables (Lst xs) (Lst []) epsilon = Pass.
Proof. destruct xs; reflexivity. Qed.

(** [zip] stops at the shorter sequence: values of the first sequence
    beyond the length of the second are never looked at. In particular
    every sequence passes against an empty one. *)
Theorem compare_nested_iterables_truncates xs extra ys epsilon :
  (length ys <= length xs)%nat ->
  compare_nested_iterables (Lst (xs ++ extra)) (Lst ys) epsilon =
  compare_nested_iterables (Lst xs) (Lst ys) epsilon.
Proof.
  revert ys. induction xs as [| f xs IH]; intros ys Hlen.
  - destruct ys; [| cbn in Hlen; lia].
    rewrite !compare_nested_iterables_nil_r. reflexivity.
  - destruct ys as [| s ys].
    + rewrite !compare_nested_iterables_nil_r. reflexivity.
    + cbn [app]. rewrite !compare_nested_iterables_cons.
      rewrite IH; [reflexivity | cbn in Hlen; lia].
Qed.

Lemma compare_nested_iterables_truncates_witness :
  compare_nested_iterables (Lst ([] ++ [Num f_one; Num f_nan])) (Lst []) default_epsilon =
  compare_nested_iterables (Lst []) (Lst []) default_epsilon.
Proof.
  apply (compare_nested_iterables_truncates [] [Num f_one; Num f_nan] [] default_epsilon).
  cbn. lia.
Defined.

(** Elements of the first sequence that are neither lists nor floats are
    skipped, whatever stands against them in the second. *)
Theorem compare_nested_iterables_skips_others xs ys epsilon :
  Forall (fun f => f = Other) xs ->
  compare_nested_iterables (Lst xs) (Lst ys) epsilon = Pass.
Proof.
  intros Hxs. revert ys. induction Hxs as [| f xs -> _ IH]; intros ys.
  - reflexivity.
  - destruct ys as [| s ys]; [reflexivity |].
    rewrite compare_nested_iterables_cons. cbn. apply IH.
Qed.

Lemma compare_nested_iterables_skips_others_witness :
  compare_nested_iterables (Lst [Other; Other]) (Lst [Num f_one; Lst []]) default_epsilon =
  Pass.
Proof.
  apply (compare_nested_iterables_skips_others [Other; Other] [Num f_one; Lst []]
           default_epsilon).
  repeat constructor.
Defined.

(** On two flat sequences of floats of the same length the helper passes
    exactly when every pair is within [epsilon]. *)
Theorem compare_nested_iterables_flat (us vs : list float) epsilon :
  length us = length vs ->
  compare_nested_iterables (Lst (map Num us)) (Lst (map Num vs)) epsilon = Pass <->
  Forall2 (fun u v => compare_values_epsilon u v epsilon = true) us vs.
Proof.
  revert vs. induction us as [| u us IH]; intros [| v vs] Hlen; try discriminate.
  - split; [constructor | reflexivity].
  - cbn [map]. rewrite compare_nested_iterables_cons. cbn.
    injection Hlen as Hlen. specialize (IH vs Hlen).
    destruct (compare_values_epsilon u v epsilon) eqn:E; cbn.
    + rewrite IH. split.
      * intros H. constructor; assumption.
      * intros H. inversion H; subst. assumption.
    + split; [discriminate |]. intros H. inversion H; subst. congruence.
Qed.

Lemma compare_nested_iterables_flat_witness :
  compare_nested_iterables (Lst (map Num [f_zero; f_one])) (Lst (map Num [f_zero; f_one]))
    default_epsilon = Pass <->
  Forall2 (fun u v => compare_values_epsilon u v default_epsilon = true)
    [f_zero; f_one] [f_zero; f_one].
Proof.
  apply (compare_nested_iterables_flat [f_zero; f_one] [f_zero; f_one] default_epsilon).
  reflexivity.
Defined.

(** A second argument that is not a sequence is a [TypeError], also where
    it stands against a nested list. *)
Lemma compare_nested_iterables_needs_sequences (first : item) x epsilon :
  compare_nested_iterables first (Num x) epsilon = Error TypeError /\
  compare_nested_iterables first Other epsilon = Error TypeError.
Proof. destruct first; split; reflexivity. Qed.

End TestHelpers.
